(** * Wazuh threat-hunting bridge: the authenticated request cycle of main.py

    A shallow embedding of [get_token], [list_agents] and
    [get_infrastructure_status].  Python [str] values are [string]s holding
    their UTF-8 bytes; the values [resp.json()] hands back are the
    inductive [pyval]; calls of [requests.get] are the one effect, kept as
    a node of a program tree that an upstream handler answers.  The
    upstream is any function of its own state and the request, so that
    every answer, status, body and raised exception is covered. *)

From Stdlib Require Import ZArith List Bool Ascii String Lia.
From Stdlib Require Import Numbers.DecimalString.
Import ListNotations.

Open Scope string_scope.
Open Scope Z_scope.

(** ** Python values *)

Module Py.

(** A float, identified by the text [float.__repr__] gives it. *)
Record pyfloat : Type := { float_repr : string }.

Set Warnings "-register-all".

(** What [json.loads] builds: None, bool, int, float, str, list, and dict
    with str keys in insertion order. *)
Inductive pyval : Type :=
| PyNone
| PyBool (b : bool)
| PyInt (n : Z)
| PyFloat (f : pyfloat)
| PyStr (s : string)
| PyList (items : list pyval)
| PyDict (items : list (string * pyval)).

(** An instance of [Exception]: its class name and [str(e)]. *)
Record exn : Type := { exc_class : string; exc_str : string }.

(** A Python computation without effects: a value or a raised exception. *)
Inductive result (A : Type) : Type :=
| Returned (a : A)
| Raised (e : exn).
Arguments Returned {A} a.
Arguments Raised {A} e.

(** [str(n)] for an int. *)
Definition str_int (n : Z) : string := NilZero.string_of_int (Z.to_int n).

(** [str(x)] inside an f-string for a value that is a str or None. *)
Definition str_opt (x : option string) : string :=
  match x with
  | Some s => s
  | None => "None"
  end.

(** [bool(v)]: what [if not token] tests. *)
Definition truthy (v : pyval) : bool :=
  match v with
  | PyNone => false
  | PyBool b => b
  | PyInt n => negb (n =? 0)
  | PyFloat f => negb (String.eqb (float_repr f) "0.0" || String.eqb (float_repr f) "-0.0")
  | PyStr s => negb (String.eqb s EmptyString)
  | PyList l => match l with [] => false | _ :: _ => true end
  | PyDict l => match l with [] => false | _ :: _ => true end
  end.

(** [type(v).__name__]. *)
Definition type_name (v : pyval) : string :=
  match v with
  | PyNone => "NoneType"
  | PyBool _ => "bool"
  | PyInt _ => "int"
  | PyFloat _ => "float"
  | PyStr _ => "str"
  | PyList _ => "list"
  | PyDict _ => "dict"
  end.

(** First binding of [k] in a dict's items. *)
Fixpoint lookup (k : string) (items : list (string * pyval)) : option pyval :=
  match items with
  | [] => None
  | (k', v) :: rest => if String.eqb k k' then Some v else lookup k rest
  end.

Definition squote : string := "'".

(** [v[key]] for a str key: a dict is looked up (KeyError when absent);
    nothing else accepts a str subscript (TypeError). *)
Definition getitem (v : pyval) (key : string) : result pyval :=
  match v with
  | PyDict items =>
      match lookup key items with
      | Some x => Returned x
      | None => Raised {| exc_class := "KeyError"; exc_str := squote ++ key ++ squote |}
      end
  | PyStr _ =>
      Raised {| exc_class := "TypeError";
                exc_str := "string indices must be integers, not 'str'" |}
  | PyList _ =>
      Raised {| exc_class := "TypeError";
                exc_str := "list indices must be integers or slices, not str" |}
  | _ =>
      Raised {| exc_class := "TypeError";
                exc_str := squote ++ type_name v ++ "' object is not subscriptable" |}
  end.

(** [v.get(key, default)]: only a dict has the method (AttributeError
    otherwise). *)
Definition get (v : pyval) (key : string) (default : pyval) : result pyval :=
  match v with
  | PyDict items =>
      match lookup key items with
      | Some x => Returned x
      | None => Returned default
      end
  | _ =>
      Raised {| exc_class := "AttributeError";
                exc_str := squote ++ type_name v ++ "' object has no attribute 'get'" |}
  end.

End Py.
Import Py.

(** ** json.dumps(obj, indent=2, ensure_ascii=False) *)

Module Json.

Definition dquote : string := String (ascii_of_nat 34) EmptyString.
Definition backslash : string := String (ascii_of_nat 92) EmptyString.
Definition newline : string := String (ascii_of_nat 10) EmptyString.

Definition hex_digit (n : nat) : ascii :=
  if Nat.ltb n 10 then ascii_of_nat (48 + n) else ascii_of_nat (87 + n).

(** ESCAPE_DCT: the replacement of one character that ESCAPE matches. *)
Definition escape_char (c : ascii) : string :=
  let n := nat_of_ascii c in
  if Nat.eqb n 34 then backslash ++ dquote
  else if Nat.eqb n 92 then backslash ++ backslash
  else if Nat.eqb n 10 then backslash ++ "n"
  else if Nat.eqb n 13 then backslash ++ "r"
  else if Nat.eqb n 9 then backslash ++ "t"
  else if Nat.eqb n 12 then backslash ++ "f"
  else if Nat.eqb n 8 then backslash ++ "b"
  else backslash ++ "u00"
       ++ String (hex_digit (Nat.div n 16)) (String (hex_digit (Nat.modulo n 16)) EmptyString).

(** The character class of ESCAPE: the control characters below 0x20, the
    backslash and the double quote; every other character, every byte of
    a character outside ASCII among them, is left as it is. *)
Definition needs_escape (c : ascii) : bool :=
  let n := nat_of_ascii c in
  Nat.ltb n 32 || Nat.eqb n 34 || Nat.eqb n 92.

Fixpoint escape (s : string) : string :=
  match s with
  | EmptyString => EmptyString
  | String c rest =>
      (if needs_escape c then escape_char c else String c EmptyString) ++ escape rest
  end.

(** py_encode_basestring, the encoder that ensure_ascii=False selects. *)
Definition encode_basestring (s : string) : string :=
  dquote ++ escape s ++ dquote.

(** floatstr with allow_nan left at its default. *)
Definition floatstr (f : pyfloat) : string :=
  let r := float_repr f in
  if String.eqb r "nan" then "NaN"
  else if String.eqb r "inf" then "Infinity"
  else if String.eqb r "-inf" then "-Infinity"
  else r.

Fixpoint spaces (n : nat) : string :=
  match n with
  | O => EmptyString
  | S m => " " ++ spaces m
  end.

(** newline_indent at a nesting level, for indent=2. *)
Definition newline_indent (level : nat) : string :=
  newline ++ spaces (2 * level).

(** With an indent the item separator is a comma and the key separator a
    colon and a space. *)
Definition item_separator (level : nat) : string := "," ++ newline_indent level.
Definition key_separator : string := ": ".

(** _iterencode, its chunks already joined; [level] is
    _current_indent_level. *)
Fixpoint iterencode (level : nat) (o : pyval) {struct o} : string :=
  match o with
  | PyStr s => encode_basestring s
  | PyNone => "null"
  | PyBool true => "true"
  | PyBool false => "false"
  | PyInt n => str_int n
  | PyFloat f => floatstr f
  | PyList [] => "[]"
  | PyList items =>
      "[" ++ newline_indent (S level)
          ++ String.concat (item_separator (S level))
                           (map (iterencode (S level)) items)
          ++ newline_indent level ++ "]"
  | PyDict [] => "{}"
  | PyDict items =>
      "{" ++ newline_indent (S level)
          ++ String.concat (item_separator (S level))
                           (map (fun kv => encode_basestring (fst kv) ++ key_separator
                                             ++ iterencode (S level) (snd kv)) items)
          ++ newline_indent level ++ "}"
  end.

Definition dumps (o : pyval) : string := iterencode 0 o.

End Json.

(** ** requests.get, and programs that call it *)

Module Http.

(** What the tools read of a Response: the status, the body text and what
    [resp.json()] does on it (the decoded value, or the exception the
    decoder raises). *)
Record response : Type := {
  status_code : Z;
  text : string;
  json : result pyval
}.

(** The value of the Authorization header, f"Bearer {token}", kept as
    its two parts: the literal text and the value that is formatted. *)
Inductive header_value : Type :=
| Bearer (token : pyval).

(** The arguments of one [requests.get] call; an argument the call leaves
    out has its default (no auth, no headers, no timeout, no params). *)
Record request : Type := {
  url : string;
  auth : option (option string * option string);
  headers : list (string * header_value);
  verify : bool;
  timeout : option Z;
  params : list (string * string)
}.

(** A program: it returns, raises, or calls [requests.get] and goes on
    with what the call gave, a response or a raised exception. *)
Inductive prog (A : Type) : Type :=
| Return (a : A)
| Raise (e : exn)
| Call (rq : request) (k : result response -> prog A).
Arguments Return {A} a.
Arguments Raise {A} e.
Arguments Call {A} rq k.

Fixpoint bind {A B : Type} (p : prog A) (f : A -> prog B) : prog B :=
  match p with
  | Return a => f a
  | Raise e => Raise e
  | Call rq k => Call rq (fun o => bind (k o) f)
  end.

(** try: [p] except Exception as e: [handler e].  Every [exn] is an
    instance of Exception, so the handler takes all of them. *)
Fixpoint try_except {A : Type} (p : prog A) (handler : exn -> prog A) : prog A :=
  match p with
  | Return a => Return a
  | Raise e => handler e
  | Call rq k => Call rq (fun o => try_except (k o) handler)
  end.

(** An expression without effects, inside a program. *)
Definition lift {A : Type} (r : result A) : prog A :=
  match r with
  | Returned a => Return a
  | Raised e => Raise e
  end.

Definition requests_get (rq : request) : prog response :=
  Call rq lift.

(** The upstream: from its state and a request, what the call gives and
    the state after it. *)
Definition upstream (W : Type) : Type := W -> request -> result response * W.

(** One call as seen from outside: the request and what it gave. *)
Definition event : Type := (request * result response)%type.

(** Running a program against an upstream: how it ends, the calls it
    made in order, and the upstream state it leaves. *)
Fixpoint run {W A : Type} (h : upstream W) (p : prog A) (w : W)
  : result A * list event * W :=
  match p with
  | Return a => (Returned a, [], w)
  | Raise e => (Raised e, [], w)
  | Call rq k =>
      let (o, w1) := h w rq in
      let '(r, tr, w2) := run h (k o) w1 in
      (r, (rq, o) :: tr, w2)
  end.

Definition outcome {W A : Type} (x : result A * list event * W) : result A :=
  fst (fst x).
Definition trace {W A : Type} (x : result A * list event * W) : list event :=
  snd (fst x).
Definition final {W A : Type} (x : result A * list event * W) : W :=
  snd x.

End Http.
Import Http.

Notation "x <- p ;; q" := (bind p (fun x => q))
  (at level 61, p at next level, right associativity).

(** ** main.py *)

Module Main.

(** The process environment after load_dotenv: [os.getenv]. *)
Definition environ : Type := string -> option string.

Section WithEnviron.

Variable getenv : environ.

Definition HOST : option string := getenv "WAZUH_API_HOST".
Definition PORT : string :=
  match getenv "WAZUH_API_PORT" with
  | Some p => p
  | None => "55000"
  end.
Definition USER : option string := getenv "WAZUH_API_USERNAME".
Definition PASS : option string := getenv "WAZUH_API_PASSWORD".
Definition BASE_URL : string := "https://" ++ str_opt HOST ++ ":" ++ PORT.

Definition authenticate_request : request :=
  {| url := BASE_URL ++ "/security/user/authenticate";
     auth := Some (USER, PASS);
     headers := [];
     verify := false;
     timeout := Some 5;
     params := [] |}.

Definition get_token : prog pyval :=
  try_except
    (resp <- requests_get authenticate_request ;;
     if status_code resp =? 200 then
       body <- lift (json resp) ;;
       data <- lift (getitem body "data") ;;
       lift (getitem data "token")
     else Return PyNone)
    (fun e => Return PyNone).

Definition agents_request (token : pyval) : request :=
  {| url := BASE_URL ++ "/agents";
     auth := None;
     headers := [("Authorization", Bearer token)];
     verify := false;
     timeout := None;
     params := [("pretty", "true")] |}.

Definition list_agents : prog string :=
  token <- get_token ;;
  if negb (truthy token) then
    Return "錯誤: 無法連線至 Wazuh API，請檢查帳號密碼或網路連線。"
  else
    try_except
      (resp <- requests_get (agents_request token) ;;
       if status_code resp =? 200 then
         body <- lift (json resp) ;;
         d <- lift (get body "data" (PyDict [])) ;;
         data <- lift (get d "affected_items" (PyList [])) ;;
         Return (Json.dumps data)
       else
         Return ("API 回傳錯誤: " ++ str_int (status_code resp) ++ " - " ++ text resp))
      (fun e => Return ("發生例外錯誤: " ++ exc_str e)).

Definition status_request (token : pyval) : request :=
  {| url := BASE_URL ++ "/agents/summary/status";
     auth := None;
     headers := [("Authorization", Bearer token)];
     verify := false;
     timeout := None;
     params := [] |}.

Definition get_infrastructure_status : prog string :=
  token <- get_token ;;
  if negb (truthy token) then
    Return "錯誤: 無法連線至 Wazuh API"
  else
    try_except
      (resp <- requests_get (status_request token) ;;
       if status_code resp =? 200 then
         body <- lift (json resp) ;;
         summary <- lift (get body "data" (PyDict [])) ;;
         Return ("【資安態勢報告】" ++ Json.newline ++ Json.dumps summary)
       else
         Return ("查詢失敗: " ++ str_int (status_code resp)))
      (fun e => Return ("發生錯誤: " ++ exc_str e)).

End WithEnviron.

End Main.
Import Main.

(** ** What the three functions do, by the answers of the upstream *)

(** The two tools that the server registers. *)
Inductive tool : Type :=
| ListAgents
| InfrastructureStatus.

Definition tool_prog (getenv : environ) (t : tool) : prog string :=
  match t with
  | ListAgents => list_agents getenv
  | InfrastructureStatus => get_infrastructure_status getenv
  end.

(** The downstream call of a tool. *)
Definition query_request (getenv : environ) (t : tool) (token : pyval) : request :=
  match t with
  | ListAgents => agents_request getenv token
  | InfrastructureStatus => status_request getenv token
  end.

(** The value at the path [k1].[k2] of a decoded body, when the body is a
    mapping whose [k1] is a mapping that has [k2]. *)
Definition at_path (body : pyval) (k1 k2 : string) : option pyval :=
  match body with
  | PyDict items =>
      match lookup k1 items with
      | Some (PyDict inner) => lookup k2 inner
      | _ => None
      end
  | _ => None
  end.

(** What [get_token] returns, by the answer to its call. *)
Definition token_of (o : result response) : pyval :=
  match o with
  | Raised _ => PyNone
  | Returned resp =>
      if status_code resp =? 200 then
        match json resp with
        | Raised _ => PyNone
        | Returned body =>
            match getitem body "data" with
            | Raised _ => PyNone
            | Returned data =>
                match getitem data "token" with
                | Raised _ => PyNone
                | Returned t => t
                end
            end
        end
      else PyNone
  end.

(** What a tool returns when it has no token. *)
Definition no_token_text (t : tool) : string :=
  match t with
  | ListAgents => "錯誤: 無法連線至 Wazuh API，請檢查帳號密碼或網路連線。"
  | InfrastructureStatus => "錯誤: 無法連線至 Wazuh API"
  end.

(** What a tool puts before [str(e)] when its query raises. *)
Definition exception_prefix (t : tool) : string :=
  match t with
  | ListAgents => "發生例外錯誤: "
  | InfrastructureStatus => "發生錯誤: "
  end.

(** The label of the status report. *)
Definition report_label : string := "【資安態勢報告】".

(** What a tool returns on a 200 answer to its query, or the exception
    that reading the answer raises. *)
Definition payload_text (t : tool) (resp : response) : result string :=
  match json resp with
  | Raised e => Raised e
  | Returned body =>
      match get body "data" (PyDict []) with
      | Raised e => Raised e
      | Returned d =>
          match t with
          | ListAgents =>
              match get d "affected_items" (PyList []) with
              | Raised e => Raised e
              | Returned data => Returned (Json.dumps data)
              end
          | InfrastructureStatus =>
              Returned (report_label ++ Json.newline ++ Json.dumps d)
          end
      end
  end.

(** What a tool returns on an answer to its query that is not 200. *)
Definition http_error_text (t : tool) (resp : response) : string :=
  match t with
  | ListAgents => "API 回傳錯誤: " ++ str_int (status_code resp) ++ " - " ++ text resp
  | InfrastructureStatus => "查詢失敗: " ++ str_int (status_code resp)
  end.

(** What a tool returns, by the answer to its query. *)
Definition reply (t : tool) (o : result response) : string :=
  match o with
  | Raised e => exception_prefix t ++ exc_str e
  | Returned resp =>
      if status_code resp =? 200 then
        match payload_text t resp with
        | Returned s => s
        | Raised e => exception_prefix t ++ exc_str e
        end
      else http_error_text t resp
  end.

(** The part of a tool after its token test: the try statement around
    the query. *)
Definition query_part (getenv : environ) (t : tool) (token : pyval) : prog string :=
  try_except
    (resp <- requests_get (query_request getenv t token) ;;
     if status_code resp =? 200 then
       match t with
       | ListAgents =>
           body <- lift (json resp) ;;
           d <- lift (get body "data" (PyDict [])) ;;
           data <- lift (get d "affected_items" (PyList [])) ;;
           Return (Json.dumps data)
       | InfrastructureStatus =>
           body <- lift (json resp) ;;
           summary <- lift (get body "data" (PyDict [])) ;;
           Return (report_label ++ Json.newline ++ Json.dumps summary)
       end
     else Return (http_error_text t resp))
    (fun e => Return (exception_prefix t ++ exc_str e)).

(** In state [w] the authentication gives the tool a token that passes
    its test, and the upstream then gives [o] to the query of the tool. *)
Definition query_answered {W : Type} (h : upstream W) (getenv : environ)
    (t : tool) (w : W) (o : result response) : Prop :=
  exists token,
    outcome (run h (get_token getenv) w) = Returned token
    /\ truthy token = true
    /\ fst (h (final (run h (get_token getenv) w)) (query_request getenv t token)) = o.

(** The runtime invoking tools one after another against one upstream:
    how each invocation ends and the calls it made. *)
Fixpoint serve {W : Type} (h : upstream W) (getenv : environ)
    (calls : list tool) (w : W) : list (result string * list event) :=
  match calls with
  | [] => []
  | t :: rest =>
      let x := run h (tool_prog getenv t) w in
      (outcome x, trace x) :: serve h getenv rest (final x)
  end.


(** ** Text inside text *)

(** [needle] occurs in [hay] as a run of consecutive characters. *)
Definition contains (needle hay : string) : Prop :=
  exists before after, hay = before ++ needle ++ after.

(** The executable test of [contains]. *)
Fixpoint starts_with (needle hay : string) : bool :=
  match needle, hay with
  | EmptyString, _ => true
  | String _ _, EmptyString => false
  | String x n, String y h => Ascii.eqb x y && starts_with n h
  end.

Fixpoint containsb (needle hay : string) : bool :=
  starts_with needle hay ||
  match hay with
  | EmptyString => false
  | String _ h => containsb needle h
  end.


Fixpoint all_chars (f : ascii -> bool) (s : string) : bool :=
  match s with
  | EmptyString => true
  | String c rest => f c && all_chars f rest
  end.

(** ** The characters of the layout *)

(** The line feed and the double quote, by their codes. *)
Definition LF : string := String (ascii_of_nat 10) EmptyString.
Definition QUOTE : string := String (ascii_of_nat 34) EmptyString.

(** A character that stands for itself inside a JSON string: not a
    control character, not the double quote, not the backslash.  Every
    byte of a character outside ASCII is one. *)
Definition plain (c : ascii) : bool :=
  let n := nat_of_ascii c in
  Nat.leb 32 n && negb (Nat.eqb n 34) && negb (Nat.eqb n 92).

(** ** Reading back what [escape] writes *)

(** What [Json.escape] writes for one character. *)
Definition escaped (c : ascii) : string :=
  if Json.needs_escape c then Json.escape_char c else String c EmptyString.

(** The value of a hexadecimal digit in lower case. *)
Definition hex_value (c : ascii) : nat :=
  let n := nat_of_ascii c in
  if Nat.ltb n 58 then (n - 48)%nat else (n - 87)%nat.

(** The character that a backslash and [c] stand for, [c] not being u. *)
Definition short_form (c : ascii) : ascii :=
  let n := nat_of_ascii c in
  if Nat.eqb n 110 then ascii_of_nat 10
  else if Nat.eqb n 114 then ascii_of_nat 13
  else if Nat.eqb n 116 then ascii_of_nat 9
  else if Nat.eqb n 102 then ascii_of_nat 12
  else if Nat.eqb n 98 then ascii_of_nat 8
  else c.

(** A reader for the output of [Json.escape], the means to show that
    escaping loses nothing: a backslash is followed by a short form, or
    by u, two digits that [escape] always writes as zeros, and two
    hexadecimal digits. *)
Fixpoint unescape (s : string) : string :=
  match s with
  | EmptyString => EmptyString
  | String c rest =>
      if Nat.eqb (nat_of_ascii c) 92 then
        match rest with
        | EmptyString => EmptyString
        | String d rest1 =>
            if Nat.eqb (nat_of_ascii d) 117 then
              match rest1 with
              | String _ (String _ (String x (String y rest2))) =>
                  String (ascii_of_nat (16 * hex_value x + hex_value y))
                         (unescape rest2)
              | _ => EmptyString
              end
            else String (short_form d) (unescape rest1)
        end
      else String c (unescape rest)
  end.

(** ** Upstreams to run the tools against *)

Module Scenario.

Definition getenv : environ := fun name =>
  if String.eqb name "WAZUH_API_HOST" then Some "wazuh.lab"
  else if String.eqb name "WAZUH_API_USERNAME" then Some "wazuh"
  else if String.eqb name "WAZUH_API_PASSWORD" then Some "secret"
  else None.

(** A process started with none of the variables set. *)
Definition empty_env : environ := fun _ => None.

Definition ok (body : pyval) : response :=
  {| status_code := 200; text := Json.dumps body; json := Returned body |}.

Definition not_json : exn :=
  {| exc_class := "JSONDecodeError";
     exc_str := "Expecting value: line 1 column 1 (char 0)" |}.

Definition failed (status : Z) (body : string) : response :=
  {| status_code := status; text := body; json := Raised not_json |}.

Definition is_authentication (rq : request) : bool :=
  match auth rq with
  | Some _ => true
  | None => false
  end.

(** An upstream without state: one answer to the authentication call,
    one to every other call. *)
Definition fixed (on_auth on_query : result response) : upstream unit :=
  fun w rq => (if is_authentication rq then on_auth else on_query, w).

Definition grants (token : string) : result response :=
  Returned (ok (PyDict [("data", PyDict [("token", PyStr token)])])).

Definition unauthorized : result response := Returned (failed 401 "Unauthorized").

Definition server_error : result response :=
  Returned (failed 500 "Internal Server Error").

Definition connection_refused : result response :=
  Raised {| exc_class := "ConnectionError"; exc_str := "Connection refused" |}.

Definition agents : list pyval :=
  [PyDict [("id", PyStr "001"); ("status", PyStr "active")];
   PyDict [("id", PyStr "002"); ("name", PyStr "主機")]].

Definition agents_body : pyval :=
  PyDict [("data", PyDict [("affected_items", PyList agents)])].

Definition counters : list (string * pyval) :=
  [("Active", PyInt 5); ("Disconnected", PyInt 1)].

Definition summary_body : pyval := PyDict [("data", PyDict counters)].

(** An upstream that hands out a new token at every authentication; its
    state is the number of tokens handed out so far. *)
Definition rotating : upstream nat :=
  fun n rq =>
    if is_authentication rq
    then (grants ("session-" ++ str_int (Z.of_nat n)), S n)
    else (Returned (ok agents_body), n).

End Scenario.

(** * Facts *)

(** ** Strings *)

Section StringFacts.

Lemma append_assoc (a b c : string) : (a ++ b) ++ c = a ++ b ++ c.
Proof.
  induction a as [|x a IH]; simpl; [reflexivity | now rewrite IH].
Qed.

Lemma append_nil_r (a : string) : a ++ EmptyString = a.
Proof.
  induction a as [|x a IH]; simpl; [reflexivity | now rewrite IH].
Qed.

Lemma contains_here (n a : string) : contains n (n ++ a).
Proof. exists EmptyString, a. reflexivity. Qed.

Lemma contains_refl (n : string) : contains n n.
Proof. exists EmptyString, EmptyString. simpl. now rewrite append_nil_r. Qed.

Lemma contains_app_l (n a s : string) : contains n s -> contains n (a ++ s).
Proof.
  intros (p & q & ->). exists (a ++ p), q. now rewrite append_assoc.
Qed.

Lemma contains_app_r (n s a : string) : contains n s -> contains n (s ++ a).
Proof.
  intros (p & q & ->). exists p, (q ++ a). now rewrite !append_assoc.
Qed.


Lemma starts_with_spec (n h : string) :
  starts_with n h = true <-> exists after, h = n ++ after.
Proof.
  revert h. induction n as [|x n IH]; intros h; simpl.
  - split; [intros _; now exists h | reflexivity].
  - destruct h as [|y h].
    + split; [discriminate | intros (q & Hq); discriminate].
    + rewrite andb_true_iff, Ascii.eqb_eq, IH. split.
      * intros (-> & q & ->). now exists q.
      * intros (q & Hq). injection Hq as -> ->. split; [reflexivity | now exists q].
Qed.

Lemma containsb_spec (n h : string) : containsb n h = true <-> contains n h.
Proof.
  induction h as [|y h IH].
  - simpl. rewrite orb_false_r, starts_with_spec. split.
    + intros (q & Hq). exists EmptyString, q. exact Hq.
    + intros (p & q & Hpq). destruct p; [now exists q | discriminate].
  - cbn [containsb]. rewrite orb_true_iff, starts_with_spec, IH. split.
    + intros [(q & Hq) | (p & q & ->)].
      * exists EmptyString, q. exact Hq.
      * exists (String y p), q. reflexivity.
    + intros (p & q & Hpq). destruct p as [|z p].
      * left. now exists q.
      * right. injection Hpq as -> ->. now exists p, q.
Qed.

Lemma not_contains (n h : string) : containsb n h = false -> ~ contains n h.
Proof.
  intros Hb Hc. apply containsb_spec in Hc. congruence.
Qed.

(** Where a piece of a joined text stands: after the pieces before it,
    and before the separator and the pieces after it. *)
Lemma concat_at (sep x : string) (l1 l2 : list string) :
  exists p,
    String.concat sep (l1 ++ x :: l2)
    = p ++ x ++ match l2 with
                | [] => EmptyString
                | _ :: _ => sep ++ String.concat sep l2
                end.
Proof.
  induction l1 as [|y l1 (p & IH)].
  - exists EmptyString. destruct l2; simpl; [now rewrite append_nil_r | reflexivity].
  - exists (y ++ sep ++ p).
    replace (String.concat sep ((y :: l1) ++ x :: l2))
      with (y ++ sep ++ String.concat sep (l1 ++ x :: l2))
      by (destruct l1; reflexivity).
    rewrite IH. now rewrite !append_assoc.
Qed.

(** Every joined piece occurs in the joined text. *)
Lemma concat_contains (sep x : string) (l : list string) :
  In x l -> contains x (String.concat sep l).
Proof.
  intros Hin. apply in_split in Hin as (l1 & l2 & ->).
  destruct (concat_at sep x l1 l2) as (p & ->). eexists _, _. reflexivity.
Qed.


End StringFacts.

(** ** The encoder *)

Section EncoderFacts.

Import Json.





Lemma iterencode_dict (level : nat) (kv : string * pyval) (items : list (string * pyval)) :
  iterencode level (PyDict (kv :: items))
  = "{" ++ newline_indent (S level)
        ++ String.concat (item_separator (S level))
             (map (fun kv => encode_basestring (fst kv) ++ key_separator
                               ++ iterencode (S level) (snd kv)) (kv :: items))
        ++ newline_indent level ++ "}".
Proof. reflexivity. Qed.


(** Each key of a dict is in the text of the dict with its value. *)
Lemma iterencode_dict_item (level : nat) (k : string) (v : pyval)
      (items : list (string * pyval)) :
  In (k, v) items ->
  contains (encode_basestring k ++ key_separator ++ iterencode (S level) v)
           (iterencode level (PyDict items)).
Proof.
  intros Hin. destruct items as [|y items]; [destruct Hin |].
  rewrite iterencode_dict.
  apply contains_app_l, contains_app_l, contains_app_r.
  apply concat_contains.
  apply (in_map (fun kv => encode_basestring (fst kv) ++ key_separator
                             ++ iterencode (S level) (snd kv))) in Hin.
  exact Hin.
Qed.


End EncoderFacts.

(** ** Running programs *)

Section RunFacts.

Context {W : Type}.
Variable h : upstream W.

Lemma run_bind {A B : Type} (p : prog A) (f : A -> prog B) (w : W) :
  run h (bind p f) w =
  match run h p w with
  | (Returned a, tr, w1) =>
      let '(r, tr2, w2) := run h (f a) w1 in (r, (tr ++ tr2)%list, w2)
  | (Raised e, tr, w1) => (Raised e, tr, w1)
  end.
Proof.
  revert w. induction p as [a | e | rq k IH]; intros w; simpl.
  - now destruct (run h (f a) w) as [[r tr] w2].
  - reflexivity.
  - destruct (h w rq) as [o w1]. rewrite IH.
    destruct (run h (k o) w1) as [[[a | e] tr] w2]; [| reflexivity].
    now destruct (run h (f a) w2) as [[r tr2] w3].
Qed.

Lemma run_try_except {A : Type} (p : prog A) (handler : exn -> prog A) (w : W) :
  run h (try_except p handler) w =
  match run h p w with
  | (Returned a, tr, w1) => (Returned a, tr, w1)
  | (Raised e, tr, w1) =>
      let '(r, tr2, w2) := run h (handler e) w1 in (r, (tr ++ tr2)%list, w2)
  end.
Proof.
  revert w. induction p as [a | e | rq k IH]; intros w; simpl.
  - reflexivity.
  - now destruct (run h (handler e) w) as [[r tr] w2].
  - destruct (h w rq) as [o w1]. rewrite IH.
    destruct (run h (k o) w1) as [[[a | e] tr] w2]; [reflexivity |].
    now destruct (run h (handler e) w2) as [[r tr2] w3].
Qed.

Lemma run_lift {A : Type} (r : result A) (w : W) : run h (lift r) w = (r, [], w).
Proof. now destruct r. Qed.

Lemma run_requests_get (rq : request) (w : W) :
  run h (requests_get rq) w = (fst (h w rq), [(rq, fst (h w rq))], snd (h w rq)).
Proof.
  unfold requests_get. simpl. destruct (h w rq) as [o w1]. now rewrite run_lift.
Qed.

End RunFacts.

(** Both tools have one shape: the token, the test, the query. *)
Lemma tool_prog_parts (getenv : environ) (t : tool) :
  tool_prog getenv t
  = (token <- get_token getenv ;;
     if negb (truthy token) then Return (no_token_text t)
     else query_part getenv t token).
Proof. destruct t; reflexivity. Qed.

Section ToolFacts.

Context {W : Type}.
Variable h : upstream W.
Variable getenv : environ.

Lemma run_get_token (w : W) :
  run h (get_token getenv) w
  = (Returned (token_of (fst (h w (authenticate_request getenv)))),
     [(authenticate_request getenv, fst (h w (authenticate_request getenv)))],
     snd (h w (authenticate_request getenv))).
Proof.
  unfold get_token. rewrite run_try_except, run_bind, run_requests_get.
  destruct (h w (authenticate_request getenv)) as [[resp | e] w1]; simpl; [| reflexivity].
  destruct (status_code resp =? 200); [| reflexivity].
  rewrite !run_bind, run_lift.
  destruct (json resp) as [body | e]; [| reflexivity].
  rewrite run_bind, run_lift.
  destruct (getitem body "data") as [data | e]; [| reflexivity].
  rewrite run_lift.
  now destruct (getitem data "token") as [t | e].
Qed.

(** After the authentication a tool with a token makes its one query
    and answers by [reply]. *)
Lemma run_query_part (t : tool) (token : pyval) (w : W) :
  run h (query_part getenv t token) w
  = (Returned (reply t (fst (h w (query_request getenv t token)))),
     [(query_request getenv t token, fst (h w (query_request getenv t token)))],
     snd (h w (query_request getenv t token))).
Proof.
  unfold query_part. rewrite run_try_except, run_bind, run_requests_get.
  destruct (h w (query_request getenv t token)) as [[resp | e] w1]; simpl; [| reflexivity].
  destruct (status_code resp =? 200); [| reflexivity].
  unfold payload_text.
  destruct t; rewrite !run_bind, run_lift;
    (destruct (json resp) as [body | e]; [| reflexivity]);
    rewrite ?run_bind, run_lift;
    (destruct (get body "data" (PyDict [])) as [d | e]; [| reflexivity]).
  - rewrite run_bind, run_lift.
    now destruct (get d "affected_items" (PyList [])) as [data | e].
  - reflexivity.
Qed.

(** A whole invocation: the authentication call, then either the text
    for a missing token or the one query and its reply. *)
Lemma run_tool (t : tool) (w : W) :
  run h (tool_prog getenv t) w
  = let oa := fst (h w (authenticate_request getenv)) in
    let w1 := snd (h w (authenticate_request getenv)) in
    let token := token_of oa in
    if truthy token then
      let rq := query_request getenv t token in
      (Returned (reply t (fst (h w1 rq))),
       [(authenticate_request getenv, oa); (rq, fst (h w1 rq))],
       snd (h w1 rq))
    else
      (Returned (no_token_text t), [(authenticate_request getenv, oa)], w1).
Proof.
  cbv zeta. rewrite tool_prog_parts, run_bind, run_get_token.
  destruct (truthy (token_of (fst (h w (authenticate_request getenv))))); simpl negb; cbv iota.
  - now rewrite run_query_part.
  - reflexivity.
Qed.

(** With a token and an answer to the query, the tool returns the reply
    to that answer. *)
Lemma query_answered_outcome (t : tool) (w : W) (o : result response) :
  query_answered h getenv t w o ->
  outcome (run h (tool_prog getenv t) w) = Returned (reply t o).
Proof.
  intros (token & Htoken & Htruthy & Ho).
  rewrite run_get_token in Htoken, Ho. unfold outcome, final in *. simpl in Htoken, Ho.
  injection Htoken as Htoken.
  rewrite run_tool. cbv zeta. rewrite Htoken, Htruthy. simpl. now rewrite Ho.
Qed.

(** Without a token the tool stops after the authentication call. *)
Lemma no_token_run (t : tool) (w : W) :
  truthy (token_of (fst (h w (authenticate_request getenv)))) = false ->
  run h (tool_prog getenv t) w
  = (Returned (no_token_text t),
     [(authenticate_request getenv, fst (h w (authenticate_request getenv)))],
     snd (h w (authenticate_request getenv))).
Proof.
  intros Hfalse. rewrite run_tool. cbv zeta. now rewrite Hfalse.
Qed.

End ToolFacts.

(** The value that [get_token] digs out of a decoded body is the one at
    the path data.token. *)
Lemma getitem_at_path (body : pyval) :
  match getitem body "data" with
  | Raised _ => PyNone
  | Returned data =>
      match getitem data "token" with
      | Raised _ => PyNone
      | Returned t => t
      end
  end
  = match at_path body "data" "token" with
    | Some t => t
    | None => PyNone
    end.
Proof.
  destruct body as [| b | n | f | s | l | items]; try reflexivity.
  unfold at_path, getitem at 1.
  destruct (lookup "data" items) as [data |]; [| reflexivity].
  destruct data as [| b | n | f | s | l | inner]; try reflexivity.
  unfold getitem. now destruct (lookup "token" inner).
Qed.


(** What [list_agents] finds at data.affected_items is what it encodes. *)
Lemma payload_at_path (resp : response) (body v : pyval) :
  json resp = Returned body ->
  at_path body "data" "affected_items" = Some v ->
  payload_text ListAgents resp = Returned (Json.dumps v).
Proof.
  intros Hj Hp. unfold payload_text. rewrite Hj.
  destruct body as [| b | n | f | s | l | items]; try discriminate.
  unfold at_path in Hp. unfold get at 1.
  destruct (lookup "data" items) as [[| b | n | f | s | l | inner] |]; try discriminate.
  unfold get. now rewrite Hp.
Qed.

(** Plain text is written as it is. *)
Lemma escape_plain (u : string) : all_chars plain u = true -> Json.escape u = u.
Proof.
  induction u as [| c u IH]; simpl; [reflexivity |].
  intros H. apply andb_true_iff in H as [Hc Hu].
  assert (Hno : Json.needs_escape c = false).
  { unfold plain in Hc. unfold Json.needs_escape.
    apply andb_true_iff in Hc as [Hc H92]. apply andb_true_iff in Hc as [H32 H34].
    apply Nat.leb_le in H32. apply negb_true_iff in H34, H92.
    rewrite H34, H92, !orb_false_r. now apply Nat.ltb_ge. }
  now rewrite Hno, IH.
Qed.


(** The layout of a mapping that is not empty: as for a list, with
    braces, each key in double quotes, a colon and a space before its
    value. *)
Lemma dict_layout (level : nat) (items : list (string * pyval)) :
  items <> [] ->
  Json.iterencode level (PyDict items)
  = "{" ++ (LF ++ Json.spaces (2 * S level))
        ++ String.concat ("," ++ LF ++ Json.spaces (2 * S level))
             (map (fun kv => (QUOTE ++ Json.escape (fst kv) ++ QUOTE) ++ ": "
                               ++ Json.iterencode (S level) (snd kv)) items)
        ++ (LF ++ Json.spaces (2 * level)) ++ "}".
Proof.
  destruct items as [| x items]; [now intros [] | reflexivity].
Qed.

(** * The claims *)

Import Scenario.

(** C1. [get_token] ends by returning, never by raising, whatever the
    upstream does and whatever the environment holds (absent credentials
    among it).  On a 200 answer whose decoded body has a value at the
    path data.token it returns that value; on an answer with another
    status, a raised transport exception, a body that does not decode, or
    a body with nothing at data.token, it returns None. *)
Theorem get_token_total :
  forall (W : Type) (h : upstream W) (getenv : environ) (w : W),
  exists v : pyval,
    outcome (run h (get_token getenv) w) = Returned v
    /\ (forall resp body t,
          fst (h w (authenticate_request getenv)) = Returned resp ->
          status_code resp = 200 ->
          json resp = Returned body ->
          at_path body "data" "token" = Some t ->
          v = t)
    /\ (forall resp,
          fst (h w (authenticate_request getenv)) = Returned resp ->
          status_code resp <> 200 ->
          v = PyNone)
    /\ (forall e,
          fst (h w (authenticate_request getenv)) = Raised e ->
          v = PyNone)
    /\ (forall resp e,
          fst (h w (authenticate_request getenv)) = Returned resp ->
          json resp = Raised e ->
          v = PyNone)
    /\ (forall resp body,
          fst (h w (authenticate_request getenv)) = Returned resp ->
          json resp = Returned body ->
          at_path body "data" "token" = None ->
          v = PyNone).
Proof.
  intros W h getenv w.
  exists (token_of (fst (h w (authenticate_request getenv)))).
  rewrite run_get_token. split; [reflexivity |].
  destruct (fst (h w (authenticate_request getenv))) as [r | x]; simpl.
  - repeat split.
    + intros resp body t [= <-] Hs Hj Hp.
      rewrite Hs, Hj, getitem_at_path, Hp. reflexivity.
    + intros resp [= <-] Hs. apply Z.eqb_neq in Hs. now rewrite Hs.
    + discriminate.
    + intros resp e [= <-] Hj. rewrite Hj. now destruct (status_code r =? 200).
    + intros resp body [= <-] Hj Hp.
      rewrite Hj, getitem_at_path, Hp. now destruct (status_code r =? 200).
  - repeat split; discriminate || reflexivity.
Qed.

Lemma get_token_total_witness :
  outcome (run (fixed (grants "abc123") unauthorized) (get_token getenv) tt)
  = Returned (PyStr "abc123")
  /\ outcome (run (fixed unauthorized unauthorized) (get_token empty_env) tt)
     = Returned PyNone.
Proof.
  split.
  - destruct (get_token_total unit (fixed (grants "abc123") unauthorized) getenv tt)
      as (v & Hv & Hok & _).
    rewrite Hv. f_equal. eapply Hok; reflexivity.
  - destruct (get_token_total unit (fixed unauthorized unauthorized) empty_env tt)
      as (v & Hv & _ & Hbad & _).
    rewrite Hv. f_equal. eapply Hbad; [reflexivity | discriminate].
Defined.

(** C2. When [get_token] returns None, [list_agents] and
    [get_infrastructure_status] return their authentication-error text,
    and the authentication call is the only call they make: the
    downstream query is not attempted. *)
Theorem no_token_short_circuit :
  forall (W : Type) (h : upstream W) (getenv : environ) (w : W),
    outcome (run h (get_token getenv) w) = Returned PyNone ->
    (outcome (run h (list_agents getenv) w)
     = Returned "錯誤: 無法連線至 Wazuh API，請檢查帳號密碼或網路連線。"
     /\ map fst (trace (run h (list_agents getenv) w)) = [authenticate_request getenv])
    /\ (outcome (run h (get_infrastructure_status getenv) w)
        = Returned "錯誤: 無法連線至 Wazuh API"
        /\ map fst (trace (run h (get_infrastructure_status getenv) w))
           = [authenticate_request getenv]).
Proof.
  intros W h getenv w Hnone.
  rewrite run_get_token in Hnone. unfold outcome in Hnone. simpl in Hnone.
  injection Hnone as Hnone.
  assert (Hfalse : truthy (token_of (fst (h w (authenticate_request getenv)))) = false)
    by now rewrite Hnone.
  split.
  - change (list_agents getenv) with (tool_prog getenv ListAgents).
    rewrite (no_token_run h getenv ListAgents w Hfalse). split; reflexivity.
  - change (get_infrastructure_status getenv) with (tool_prog getenv InfrastructureStatus).
    rewrite (no_token_run h getenv InfrastructureStatus w Hfalse). split; reflexivity.
Qed.

Lemma no_token_short_circuit_witness :
  outcome (run (fixed unauthorized (Returned (ok agents_body))) (list_agents getenv) tt)
  = Returned "錯誤: 無法連線至 Wazuh API，請檢查帳號密碼或網路連線。".
Proof.
  apply (no_token_short_circuit unit (fixed unauthorized (Returned (ok agents_body)))
           getenv tt).
  reflexivity.
Defined.

(** What the two tools return on an answer to the downstream query whose
    status is not 200: [list_agents] a text that holds the status code
    and the body text of the answer, [get_infrastructure_status] a text
    that holds the status code. *)
Theorem http_error_text_embeds :
  forall (W : Type) (h : upstream W) (getenv : environ) (w : W) (resp : response),
    status_code resp <> 200 ->
    (query_answered h getenv ListAgents w (Returned resp) ->
     outcome (run h (list_agents getenv) w)
     = Returned ("API 回傳錯誤: " ++ str_int (status_code resp) ++ " - " ++ text resp)
     /\ contains (str_int (status_code resp))
          ("API 回傳錯誤: " ++ str_int (status_code resp) ++ " - " ++ text resp)
     /\ contains (text resp)
          ("API 回傳錯誤: " ++ str_int (status_code resp) ++ " - " ++ text resp))
    /\ (query_answered h getenv InfrastructureStatus w (Returned resp) ->
        outcome (run h (get_infrastructure_status getenv) w)
        = Returned ("查詢失敗: " ++ str_int (status_code resp))
        /\ contains (str_int (status_code resp))
             ("查詢失敗: " ++ str_int (status_code resp))).
Proof.
  intros W h getenv w resp Hstatus. apply Z.eqb_neq in Hstatus.
  split; intros Hq; apply query_answered_outcome in Hq;
    unfold reply in Hq; rewrite Hstatus in Hq.
  - split; [exact Hq |]. split.
    + apply contains_app_l, contains_here.
    + apply contains_app_l, contains_app_l, contains_app_l, contains_refl.
  - split; [exact Hq |]. apply contains_app_l, contains_refl.
Qed.

Lemma http_error_text_embeds_witness :
  outcome (run (fixed (grants "abc123") server_error) (list_agents getenv) tt)
  = Returned "API 回傳錯誤: 500 - Internal Server Error".
Proof.
  apply (http_error_text_embeds unit (fixed (grants "abc123") server_error) getenv tt
           (failed 500 "Internal Server Error")).
  - discriminate.
  - exists (PyStr "abc123"). repeat split.
Defined.

(** C3. A text that holds the status code and the body text of every
    answer that is not 200 is what [list_agents] returns, and not what
    [get_infrastructure_status] returns: on a 500 answer with the body
    Internal Server Error the first returns both, the second returns the
    status code and leaves the body text out. *)
Theorem status_error_omits_body :
  query_answered (fixed (grants "abc123") server_error) getenv InfrastructureStatus tt
    (Returned (failed 500 "Internal Server Error"))
  /\ outcome (run (fixed (grants "abc123") server_error) (list_agents getenv) tt)
     = Returned "API 回傳錯誤: 500 - Internal Server Error"
  /\ outcome (run (fixed (grants "abc123") server_error)
                (get_infrastructure_status getenv) tt)
     = Returned "查詢失敗: 500"
  /\ contains (str_int 500) "查詢失敗: 500"
  /\ ~ contains (text (failed 500 "Internal Server Error")) "查詢失敗: 500".
Proof.
  split; [exists (PyStr "abc123"); repeat split |].
  split; [reflexivity |]. split; [reflexivity |]. split.
  - apply containsb_spec. reflexivity.
  - apply not_contains. reflexivity.
Qed.

(** C4, as the code has it.  Whatever the upstream does, both tools end
    by returning a text and never by raising.  An exception raised by the
    downstream query call, or by decoding its 200 answer, is turned into
    a text that ends with the description of the exception; an exception
    raised by the authentication call is turned into the fixed
    authentication-error text of the tool. *)
Theorem tools_never_raise :
  forall (W : Type) (h : upstream W) (getenv : environ) (t : tool) (w : W),
    (exists s, outcome (run h (tool_prog getenv t) w) = Returned s)
    /\ (forall e,
          query_answered h getenv t w (Raised e) ->
          outcome (run h (tool_prog getenv t) w)
          = Returned (exception_prefix t ++ exc_str e))
    /\ (forall resp e,
          query_answered h getenv t w (Returned resp) ->
          status_code resp = 200 ->
          json resp = Raised e ->
          outcome (run h (tool_prog getenv t) w)
          = Returned (exception_prefix t ++ exc_str e))
    /\ (forall e,
          fst (h w (authenticate_request getenv)) = Raised e ->
          outcome (run h (tool_prog getenv t) w) = Returned (no_token_text t)).
Proof.
  intros W h getenv t w. repeat split.
  - rewrite run_tool. cbv zeta.
    destruct (truthy (token_of (fst (h w (authenticate_request getenv)))));
      eexists; reflexivity.
  - intros e Hq. now rewrite (query_answered_outcome h getenv t w _ Hq).
  - intros resp e Hq Hs Hj. rewrite (query_answered_outcome h getenv t w _ Hq).
    unfold reply, payload_text. now rewrite Hs, Hj.
  - intros e He. rewrite no_token_run; [reflexivity | now rewrite He].
Qed.

Lemma tools_never_raise_witness :
  outcome (run (fixed (grants "abc123") connection_refused)
             (get_infrastructure_status getenv) tt)
  = Returned "發生錯誤: Connection refused"
  /\ outcome (run (fixed (grants "abc123") (Returned (failed 200 "<html>")))
               (list_agents getenv) tt)
     = Returned "發生例外錯誤: Expecting value: line 1 column 1 (char 0)".
Proof.
  split.
  - destruct (tools_never_raise unit (fixed (grants "abc123") connection_refused)
                getenv InfrastructureStatus tt) as (_ & Hcall & _).
    apply (Hcall {| exc_class := "ConnectionError"; exc_str := "Connection refused" |}).
    exists (PyStr "abc123"). repeat split.
  - destruct (tools_never_raise unit
                (fixed (grants "abc123") (Returned (failed 200 "<html>")))
                getenv ListAgents tt) as (_ & _ & Hdecode & _).
    apply (Hdecode (failed 200 "<html>") not_json).
    + exists (PyStr "abc123"). repeat split.
    + reflexivity.
    + reflexivity.
Defined.

(** C4, as the claim has it, fails: when the connection is refused the
    authentication call is the one that raises, and [list_agents] returns
    its fixed authentication-error text, in which the description of the
    exception does not occur. *)
Lemma refused_connection_description_dropped :
  fst (fixed connection_refused connection_refused tt (authenticate_request getenv))
  = Raised {| exc_class := "ConnectionError"; exc_str := "Connection refused" |}
  /\ outcome (run (fixed connection_refused connection_refused) (list_agents getenv) tt)
     = Returned "錯誤: 無法連線至 Wazuh API，請檢查帳號密碼或網路連線。"
  /\ ~ contains "Connection refused"
         "錯誤: 無法連線至 Wazuh API，請檢查帳號密碼或網路連線。".
Proof.
  split; [reflexivity |]. split; [reflexivity |].
  apply not_contains. reflexivity.
Qed.



(** C6. On a 200 answer to the status query whose decoded body has a
    mapping at data, [get_infrastructure_status] returns the report
    label, a line break and that mapping pretty-printed: the empty
    mapping as a pair of braces; any other as an opening brace, each
    counter on a line of its own, two spaces in, as its name in double
    quotes, a colon, a space and its value, with a comma between
    counters, and the closing brace on the last line.  Every counter of
    the mapping is in the text; a name of plain text is written as it is
    between the quotes and a whole number in decimal. *)
Theorem status_report_has_every_counter :
  forall (W : Type) (h : upstream W) (getenv : environ) (w : W)
         (resp : response) (body counters : list (string * pyval)),
    query_answered h getenv InfrastructureStatus w (Returned resp) ->
    status_code resp = 200 ->
    json resp = Returned (PyDict body) ->
    lookup "data" body = Some (PyDict counters) ->
    exists s : string,
      outcome (run h (get_infrastructure_status getenv) w) = Returned s
      /\ s = "【資安態勢報告】" ++ LF ++ Json.dumps (PyDict counters)
      /\ (counters = [] -> s = "【資安態勢報告】" ++ LF ++ "{}")
      /\ (counters <> [] ->
          s = "【資安態勢報告】" ++ LF
                ++ "{" ++ (LF ++ "  ")
                ++ String.concat ("," ++ LF ++ "  ")
                     (map (fun kv => (QUOTE ++ Json.escape (fst kv) ++ QUOTE) ++ ": "
                                       ++ Json.iterencode 1 (snd kv)) counters)
                ++ LF ++ "}")
      /\ (forall k v,
            In (k, v) counters ->
            contains ((QUOTE ++ Json.escape k ++ QUOTE) ++ ": " ++ Json.iterencode 1 v) s)
      /\ (forall k n,
            In (k, PyInt n) counters ->
            all_chars plain k = true ->
            contains ((QUOTE ++ k ++ QUOTE) ++ ": " ++ str_int n) s).
Proof.
  intros W h getenv w resp body counters Hq Hs Hj Hd.
  exists ("【資安態勢報告】" ++ LF ++ Json.dumps (PyDict counters)).
  assert (Hall : forall k v, In (k, v) counters ->
             contains ((QUOTE ++ Json.escape k ++ QUOTE) ++ ": " ++ Json.iterencode 1 v)
               ("【資安態勢報告】" ++ LF ++ Json.dumps (PyDict counters))).
  { intros k v Hkv. apply contains_app_l, contains_app_l.
    now apply (iterencode_dict_item 0). }
  split.
  { change (get_infrastructure_status getenv)
      with (tool_prog getenv InfrastructureStatus).
    rewrite (query_answered_outcome h getenv InfrastructureStatus w _ Hq).
    unfold reply, payload_text, get. now rewrite Hs, Hj, Hd. }
  split; [reflexivity |].
  split; [now intros -> |].
  split.
  { intros Hne. unfold Json.dumps. now rewrite (dict_layout 0 counters Hne). }
  split; [exact Hall |].
  intros k n Hkn Hk. specialize (Hall k _ Hkn).
  cbn [Json.iterencode] in Hall. now rewrite (escape_plain k Hk) in Hall.
Qed.

Lemma status_report_has_every_counter_witness :
  outcome (run (fixed (grants "abc123") (Returned (ok summary_body)))
             (get_infrastructure_status getenv) tt)
  = Returned
      ("【資安態勢報告】" ++ LF
       ++ "{" ++ LF
       ++ "  " ++ QUOTE ++ "Active" ++ QUOTE ++ ": 5," ++ LF
       ++ "  " ++ QUOTE ++ "Disconnected" ++ QUOTE ++ ": 1" ++ LF
       ++ "}")
  /\ exists s : string,
       outcome (run (fixed (grants "abc123") (Returned (ok summary_body)))
                  (get_infrastructure_status getenv) tt) = Returned s
       /\ contains ((QUOTE ++ "Active" ++ QUOTE) ++ ": 5") s
       /\ contains ((QUOTE ++ "Disconnected" ++ QUOTE) ++ ": 1") s.
Proof.
  destruct (status_report_has_every_counter unit
              (fixed (grants "abc123") (Returned (ok summary_body))) getenv tt
              (ok summary_body) [("data", PyDict counters)] counters)
    as (s & Hs & _ & _ & Hlayout & _ & Hint).
  - exists (PyStr "abc123"). repeat split.
  - reflexivity.
  - reflexivity.
  - reflexivity.
  - split.
    + rewrite Hs. f_equal. rewrite Hlayout; [reflexivity | discriminate].
    + exists s. split; [exact Hs |]. split.
      * apply (Hint "Active" 5); [simpl; tauto | reflexivity].
      * apply (Hint "Disconnected" 1); [simpl; tauto | reflexivity].
Defined.

(** C7. Two calls of [list_agents] one after the other, the second from
    the upstream state the first left, return the same text when the
    upstream gives the same answers both times (the same answer to the
    authentication and the same answer to the query). *)
Theorem list_agents_idempotent :
  forall (W : Type) (h : upstream W) (getenv : environ) (w : W),
    map snd (trace (run h (list_agents getenv) w))
    = map snd (trace (run h (list_agents getenv)
                        (final (run h (list_agents getenv) w)))) ->
    outcome (run h (list_agents getenv) w)
    = outcome (run h (list_agents getenv) (final (run h (list_agents getenv) w))).
Proof.
  intros W h getenv w.
  generalize (final (run h (list_agents getenv) w)). intros w'.
  change (list_agents getenv) with (tool_prog getenv ListAgents).
  rewrite !run_tool. cbv zeta.
  destruct (truthy (token_of (fst (h w (authenticate_request getenv))))) eqn:E1;
    destruct (truthy (token_of (fst (h w' (authenticate_request getenv))))) eqn:E2;
    unfold trace, outcome; simpl; intros Hsame.
  - injection Hsame as Ha Hq. now rewrite Hq.
  - discriminate.
  - discriminate.
  - reflexivity.
Qed.

Lemma list_agents_idempotent_witness :
  outcome (run (fixed (grants "abc123") (Returned (ok agents_body)))
             (list_agents getenv) tt)
  = outcome (run (fixed (grants "abc123") (Returned (ok agents_body)))
               (list_agents getenv)
               (final (run (fixed (grants "abc123") (Returned (ok agents_body)))
                         (list_agents getenv) tt))).
Proof.
  apply (list_agents_idempotent unit
           (fixed (grants "abc123") (Returned (ok agents_body))) getenv tt).
  reflexivity.
Defined.

(** C8. The authentication call of [get_token] is made with timeout=5.
    Every call that a tool makes is either that authentication call or
    the query of the tool, and the query is made with no timeout: the
    wait for the authentication is the only bounded one. *)
Theorem only_authentication_has_timeout :
  forall (W : Type) (h : upstream W) (getenv : environ) (t : tool) (w : W),
    map fst (trace (run h (get_token getenv) w)) = [authenticate_request getenv]
    /\ timeout (authenticate_request getenv) = Some 5
    /\ (forall rq o,
          In (rq, o) (trace (run h (tool_prog getenv t) w)) ->
          rq = authenticate_request getenv
          \/ (exists token, rq = query_request getenv t token) /\ timeout rq = None).
Proof.
  intros W h getenv t w. split; [now rewrite run_get_token |].
  split; [reflexivity |].
  intros rq o. rewrite run_tool. cbv zeta.
  destruct (truthy (token_of (fst (h w (authenticate_request getenv)))));
    unfold trace; simpl.
  - intros [[= <- _] | [[= <- _] | []]]; [now left |].
    right. split; [eexists; reflexivity | now destruct t].
  - intros [[= <- _] | []]. now left.
Qed.

Lemma only_authentication_has_timeout_witness :
  map (fun ev => timeout (fst ev))
      (trace (run (fixed (grants "abc123") (Returned (ok agents_body)))
                (list_agents getenv) tt))
  = [Some 5; None]
  /\ timeout (agents_request getenv (PyStr "abc123")) = None.
Proof.
  split; [reflexivity |].
  destruct (only_authentication_has_timeout unit
              (fixed (grants "abc123") (Returned (ok agents_body)))
              getenv ListAgents tt) as (_ & _ & Hcalls).
  destruct (Hcalls (agents_request getenv (PyStr "abc123")) (Returned (ok agents_body)))
    as [Hauth | [_ Hnone]].
  - right. left. reflexivity.
  - discriminate Hauth.
  - exact Hnone.
Defined.


(** Two invocations against an upstream that hands out a new token each
    time: the query of each carries the token handed to that invocation. *)
Example rotating_tokens_are_not_shared :
  map (fun x => map (fun ev => headers (fst ev)) (snd x))
      (serve rotating getenv [ListAgents; InfrastructureStatus] 0%nat)
  = [[[]; [("Authorization", Bearer (PyStr "session-0"))]];
     [[]; [("Authorization", Bearer (PyStr "session-1"))]]].
Proof. reflexivity. Qed.

(** C10, as the code has it.  On a 200 answer to the query whose decoded
    body is a mapping without data, or for [list_agents] a mapping whose
    data is a mapping without affected_items, no error is reported:
    [list_agents] returns the text of the empty list, a pair of
    brackets, and [get_infrastructure_status] returns its label, a line
    break and the text of the empty mapping, a pair of braces. *)
Theorem missing_fields_fall_back_to_empty :
  forall (W : Type) (h : upstream W) (getenv : environ) (w : W)
         (resp : response) (body : list (string * pyval)),
    status_code resp = 200 ->
    json resp = Returned (PyDict body) ->
    (query_answered h getenv ListAgents w (Returned resp) ->
     lookup "data" body = None
     \/ (exists d, lookup "data" body = Some (PyDict d)
                   /\ lookup "affected_items" d = None) ->
     outcome (run h (list_agents getenv) w) = Returned "[]"
     /\ Json.dumps (PyList []) = "[]")
    /\ (query_answered h getenv InfrastructureStatus w (Returned resp) ->
        lookup "data" body = None ->
        outcome (run h (get_infrastructure_status getenv) w)
        = Returned ("【資安態勢報告】" ++ LF ++ "{}")
        /\ Json.dumps (PyDict []) = "{}").
Proof.
  intros W h getenv w resp body Hs Hj. split.
  - intros Hq Hmissing. split; [| reflexivity].
    change (list_agents getenv) with (tool_prog getenv ListAgents).
    rewrite (query_answered_outcome h getenv ListAgents w _ Hq).
    unfold reply, payload_text, get at 1. rewrite Hs, Hj. simpl.
    destruct Hmissing as [Hd | (d & Hd & Hitems)]; rewrite Hd; simpl.
    + reflexivity.
    + now rewrite Hitems.
  - intros Hq Hd. split; [| reflexivity].
    change (get_infrastructure_status getenv)
      with (tool_prog getenv InfrastructureStatus).
    rewrite (query_answered_outcome h getenv InfrastructureStatus w _ Hq).
    unfold reply, payload_text, get. now rewrite Hs, Hj, Hd.
Qed.

Lemma missing_fields_fall_back_to_empty_witness :
  outcome (run (fixed (grants "abc123") (Returned (ok (PyDict [("error", PyInt 0)]))))
             (list_agents getenv) tt) = Returned "[]"
  /\ outcome (run (fixed (grants "abc123") (Returned (ok (PyDict [("error", PyInt 0)]))))
               (get_infrastructure_status getenv) tt)
     = Returned ("【資安態勢報告】" ++ LF ++ "{}").
Proof.
  destruct (missing_fields_fall_back_to_empty unit
              (fixed (grants "abc123") (Returned (ok (PyDict [("error", PyInt 0)]))))
              getenv tt (ok (PyDict [("error", PyInt 0)])) [("error", PyInt 0)]
              eq_refl eq_refl) as [Hagents Hstatus].
  split.
  - apply Hagents; [exists (PyStr "abc123"); repeat split | left; reflexivity].
  - apply Hstatus; [exists (PyStr "abc123"); repeat split | reflexivity].
Defined.

(** C10, as the claim has it, fails.  A 200 answer whose body is the
    mapping with data null has no affected_items, and [list_agents]
    returns the text of an AttributeError and not the text of an empty
    list; a 200 answer whose body is an empty list has no data, and
    neither tool falls back: both return the text of an
    AttributeError. *)
Lemma fallback_needs_mappings :
  (status_code (ok (PyDict [("data", PyNone)])) = 200
   /\ at_path (PyDict [("data", PyNone)]) "data" "affected_items" = None
   /\ outcome (run (fixed (grants "abc123") (Returned (ok (PyDict [("data", PyNone)]))))
                 (list_agents getenv) tt)
      = Returned "發生例外錯誤: 'NoneType' object has no attribute 'get'"
   /\ outcome (run (fixed (grants "abc123") (Returned (ok (PyDict [("data", PyNone)]))))
                 (list_agents getenv) tt)
      <> Returned "[]")
  /\ (status_code (ok (PyList [])) = 200
      /\ at_path (PyList []) "data" "affected_items" = None
      /\ outcome (run (fixed (grants "abc123") (Returned (ok (PyList []))))
                    (list_agents getenv) tt)
         = Returned "發生例外錯誤: 'list' object has no attribute 'get'"
      /\ outcome (run (fixed (grants "abc123") (Returned (ok (PyList []))))
                    (get_infrastructure_status getenv) tt)
         = Returned "發生錯誤: 'list' object has no attribute 'get'"
      /\ outcome (run (fixed (grants "abc123") (Returned (ok (PyList []))))
                    (get_infrastructure_status getenv) tt)
         <> Returned ("【資安態勢報告】" ++ LF ++ "{}")).
Proof.
  repeat split; discriminate.
Qed.

(** * Further properties of the code *)

Section MoreToolFacts.

Context {W : Type}.
Variable h : upstream W.
Variable getenv : environ.

(** [query_answered] read off the upstream: the token of the answer to
    the authentication passes the test, and [o] is the answer to the
    query that carries it. *)
Lemma query_answered_iff (t : tool) (w : W) (o : result response) :
  query_answered h getenv t w o <->
  truthy (token_of (fst (h w (authenticate_request getenv)))) = true
  /\ o = fst (h (snd (h w (authenticate_request getenv)))
               (query_request getenv t
                  (token_of (fst (h w (authenticate_request getenv)))))).
Proof.
  unfold query_answered. rewrite run_get_token. unfold outcome, final. simpl. split.
  - intros (token & [= <-] & Htruthy & <-). split; [exact Htruthy | reflexivity].
  - intros (Htruthy & ->). eexists. repeat split. exact Htruthy.
Qed.


End MoreToolFacts.

(** X1. A token that Python counts as false (the empty string, 0, False,
    an empty list or mapping) is no token for the tools, even when the
    authentication answered 200 with it: the tool returns its
    authentication-error text and makes no query. *)
Theorem falsy_token_is_no_token :
  forall (W : Type) (h : upstream W) (getenv : environ) (t : tool) (w : W)
         (token : pyval),
    outcome (run h (get_token getenv) w) = Returned token ->
    truthy token = false ->
    outcome (run h (tool_prog getenv t) w) = Returned (no_token_text t)
    /\ map fst (trace (run h (tool_prog getenv t) w)) = [authenticate_request getenv].
Proof.
  intros W h getenv t w token Htoken Hfalse.
  rewrite run_get_token in Htoken. unfold outcome in Htoken. simpl in Htoken.
  injection Htoken as Htoken. rewrite <- Htoken in Hfalse.
  rewrite (no_token_run h getenv t w Hfalse). split; reflexivity.
Qed.

Lemma falsy_token_is_no_token_witness :
  outcome (run (fixed (grants EmptyString) (Returned (ok agents_body)))
             (get_token getenv) tt) = Returned (PyStr EmptyString)
  /\ outcome (run (fixed (grants EmptyString) (Returned (ok agents_body)))
               (list_agents getenv) tt)
     = Returned "錯誤: 無法連線至 Wazuh API，請檢查帳號密碼或網路連線。".
Proof.
  split; [reflexivity |].
  apply (falsy_token_is_no_token unit
           (fixed (grants EmptyString) (Returned (ok agents_body)))
           getenv ListAgents tt (PyStr EmptyString)); reflexivity.
Defined.





(** X4. No call is repeated: an invocation makes one call when the
    authentication gives no token and two when it gives one, whatever
    the answers are; a run of n invocations makes between n and 2n
    calls. *)
Theorem invocations_make_one_or_two_calls :
  forall (W : Type) (h : upstream W) (getenv : environ) (calls : list tool) (w : W),
    (forall t,
       List.length (trace (run h (tool_prog getenv t) w))
       = if truthy (token_of (fst (h w (authenticate_request getenv))))
         then 2%nat else 1%nat)
    /\ (List.length calls
        <= List.length (List.concat (map snd (serve h getenv calls w))))%nat
    /\ (List.length (List.concat (map snd (serve h getenv calls w)))
        <= 2 * List.length calls)%nat.
Proof.
  intros W h getenv calls w.
  assert (Hone : forall t w',
             List.length (trace (run h (tool_prog getenv t) w'))
             = if truthy (token_of (fst (h w' (authenticate_request getenv))))
               then 2%nat else 1%nat).
  { intros t w'. rewrite run_tool. cbv zeta.
    now destruct (truthy (token_of (fst (h w' (authenticate_request getenv))))). }
  split; [intros t; apply Hone |].
  revert w. induction calls as [| t calls IH]; intros w.
  - simpl. lia.
  - cbn [serve map List.concat snd]. rewrite length_app. cbn [List.length].
    specialize (IH (final (run h (tool_prog getenv t) w))).
    rewrite (Hone t w).
    destruct (truthy (token_of (fst (h w (authenticate_request getenv))))); lia.
Qed.

(** X5. A 200 answer to the query whose decoded body is not a mapping (a
    list, a string, a number, null) is reported as an exception: both
    tools return their exception prefix followed by the text of the
    AttributeError on the missing method get, which names the type of the
    body. *)
Theorem body_not_a_mapping_is_reported :
  forall (W : Type) (h : upstream W) (getenv : environ) (t : tool) (w : W)
         (resp : response) (body : pyval),
    query_answered h getenv t w (Returned resp) ->
    status_code resp = 200 ->
    json resp = Returned body ->
    (forall items, body <> PyDict items) ->
    outcome (run h (tool_prog getenv t) w)
    = Returned (exception_prefix t ++ "'" ++ type_name body
                  ++ "' object has no attribute 'get'").
Proof.
  intros W h getenv t w resp body Hq Hs Hj Hnot.
  rewrite (query_answered_outcome h getenv t w _ Hq).
  unfold reply, payload_text. rewrite Hs, Hj. simpl.
  destruct body as [| b | n | f | s | l | items]; try reflexivity.
  now elim (Hnot items).
Qed.

Lemma body_not_a_mapping_is_reported_witness :
  outcome (run (fixed (grants "abc123") (Returned (ok (PyList []))))
             (list_agents getenv) tt)
  = Returned "發生例外錯誤: 'list' object has no attribute 'get'".
Proof.
  apply (body_not_a_mapping_is_reported unit
           (fixed (grants "abc123") (Returned (ok (PyList []))))
           getenv ListAgents tt (ok (PyList [])) (PyList [])).
  - exists (PyStr "abc123"). repeat split.
  - reflexivity.
  - reflexivity.
  - discriminate.
Defined.

(** X6. The two tools part ways on a 200 answer whose data is there and
    is not a mapping: [list_agents], which looks inside it, returns the
    text of the AttributeError, and [get_infrastructure_status], which
    does not, returns its label followed by that value as json.dumps
    writes it. *)
Theorem data_not_a_mapping :
  forall (W : Type) (h : upstream W) (getenv : environ) (w : W)
         (resp : response) (body : list (string * pyval)) (d : pyval),
    status_code resp = 200 ->
    json resp = Returned (PyDict body) ->
    lookup "data" body = Some d ->
    (forall items, d <> PyDict items) ->
    (query_answered h getenv ListAgents w (Returned resp) ->
     outcome (run h (list_agents getenv) w)
     = Returned ("發生例外錯誤: '" ++ type_name d ++ "' object has no attribute 'get'"))
    /\ (query_answered h getenv InfrastructureStatus w (Returned resp) ->
        outcome (run h (get_infrastructure_status getenv) w)
        = Returned ("【資安態勢報告】" ++ Json.newline ++ Json.dumps d)).
Proof.
  intros W h getenv w resp body d Hs Hj Hd Hnot. split; intros Hq.
  - change (list_agents getenv) with (tool_prog getenv ListAgents).
    rewrite (query_answered_outcome h getenv ListAgents w _ Hq).
    unfold reply, payload_text, get at 1. rewrite Hs, Hj, Hd. simpl.
    destruct d as [| b | n | f | s | l | items]; try reflexivity.
    now elim (Hnot items).
  - change (get_infrastructure_status getenv)
      with (tool_prog getenv InfrastructureStatus).
    rewrite (query_answered_outcome h getenv InfrastructureStatus w _ Hq).
    unfold reply, payload_text, get. now rewrite Hs, Hj, Hd.
Qed.

Lemma data_not_a_mapping_witness :
  outcome (run (fixed (grants "abc123") (Returned (ok (PyDict [("data", PyNone)]))))
             (list_agents getenv) tt)
  = Returned "發生例外錯誤: 'NoneType' object has no attribute 'get'"
  /\ outcome (run (fixed (grants "abc123") (Returned (ok (PyDict [("data", PyNone)]))))
               (get_infrastructure_status getenv) tt)
     = Returned ("【資安態勢報告】" ++ Json.newline ++ "null").
Proof.
  destruct (data_not_a_mapping unit
              (fixed (grants "abc123") (Returned (ok (PyDict [("data", PyNone)]))))
              getenv tt (ok (PyDict [("data", PyNone)])) [("data", PyNone)] PyNone
              eq_refl eq_refl eq_refl) as [Hagents Hstatus].
  - discriminate.
  - split.
    + apply Hagents. exists (PyStr "abc123"). repeat split.
    + apply Hstatus. exists (PyStr "abc123"). repeat split.
Defined.

(** X7. The report label tells success from failure: the text that
    [get_infrastructure_status] returns begins with the label exactly
    when the authentication gave a token and the query was answered 200
    with a body that decodes to a mapping; the text is then the label, a
    line break and the data of the body (the empty mapping when there is
    none).  None of its error texts begins with the label. *)
Theorem label_iff_status_succeeded :
  forall (W : Type) (h : upstream W) (getenv : environ) (w : W) (s : string),
    outcome (run h (get_infrastructure_status getenv) w) = Returned s ->
    (starts_with "【資安態勢報告】" s = true
     <-> exists resp body,
           query_answered h getenv InfrastructureStatus w (Returned resp)
           /\ status_code resp = 200
           /\ json resp = Returned (PyDict body)
           /\ s = "【資安態勢報告】" ++ Json.newline
                    ++ Json.dumps (match lookup "data" body with
                                   | Some d => d
                                   | None => PyDict []
                                   end)).
Proof.
  intros W h getenv w s.
  change (get_infrastructure_status getenv) with (tool_prog getenv InfrastructureStatus).
  rewrite run_tool. cbv zeta.
  destruct (truthy (token_of (fst (h w (authenticate_request getenv))))) eqn:E;
    unfold outcome; simpl; intros [= <-].
  - destruct (fst (h (snd (h w (authenticate_request getenv)))
                     (status_request getenv
                        (token_of (fst (h w (authenticate_request getenv))))))) 
      as [resp | e] eqn:Ho.
    + unfold reply. destruct (status_code resp =? 200) eqn:Hs.
      * unfold payload_text.
        destruct (json resp) as [[| b | n | f | u | l | body] | e] eqn:Hj;
          try (split; [discriminate
                      | intros (r & bd & Hq & _ & Hj' & _);
                        apply query_answered_iff in Hq as [_ Hq];
                        simpl in Hq; rewrite Ho in Hq; injection Hq as <-;
                        congruence]).
        split; [intros _ | intros _].
        -- exists resp, body.
           split; [apply query_answered_iff; split; [exact E | now rewrite <- Ho] |].
           split; [now apply Z.eqb_eq |]. split; [exact Hj |].
           unfold get. now destruct (lookup "data" body).
        -- unfold get. now destruct (lookup "data" body).
      * split; [discriminate |].
        intros (r & bd & Hq & Hs' & _).
        apply query_answered_iff in Hq as [_ Hq]. simpl in Hq.
        rewrite Ho in Hq. injection Hq as <-.
        apply Z.eqb_neq in Hs. contradiction.
    + split; [discriminate |].
      intros (r & bd & Hq & _).
      apply query_answered_iff in Hq as [_ Hq]. simpl in Hq.
      rewrite Ho in Hq. discriminate Hq.
  - split; [discriminate |].
    intros (r & bd & Hq & _).
    apply query_answered_iff in Hq as [Hq _]. congruence.
Qed.

Lemma label_iff_status_succeeded_witness :
  starts_with "【資安態勢報告】"
    ("【資安態勢報告】" ++ Json.newline ++ Json.dumps (PyDict counters)) = true
  <-> exists resp body,
        query_answered (fixed (grants "abc123") (Returned (ok summary_body)))
          getenv InfrastructureStatus tt (Returned resp)
        /\ status_code resp = 200
        /\ json resp = Returned (PyDict body)
        /\ "【資安態勢報告】" ++ Json.newline ++ Json.dumps (PyDict counters)
           = "【資安態勢報告】" ++ Json.newline
               ++ Json.dumps (match lookup "data" body with
                              | Some d => d
                              | None => PyDict []
                              end).
Proof.
  apply (label_iff_status_succeeded unit
           (fixed (grants "abc123") (Returned (ok summary_body))) getenv tt).
  reflexivity.
Defined.

(** X8. An opening bracket tells a listing from an error: when the text
    that [list_agents] returns begins with a bracket, the authentication
    gave a token, the query was answered 200 and the text is what
    json.dumps writes for the value found at data.affected_items (or its
    default); none of the error texts begins with a bracket.  And every
    listing of a sequence begins with one. *)
Theorem bracket_means_agents_listed :
  forall (W : Type) (h : upstream W) (getenv : environ) (w : W) (s : string),
    outcome (run h (list_agents getenv) w) = Returned s ->
    (starts_with "[" s = true ->
     exists resp body d v,
       query_answered h getenv ListAgents w (Returned resp)
       /\ status_code resp = 200
       /\ json resp = Returned body
       /\ get body "data" (PyDict []) = Returned d
       /\ get d "affected_items" (PyList []) = Returned v
       /\ s = Json.dumps v)
    /\ (forall resp body items,
          query_answered h getenv ListAgents w (Returned resp) ->
          status_code resp = 200 ->
          json resp = Returned body ->
          at_path body "data" "affected_items" = Some (PyList items) ->
          starts_with "[" s = true).
Proof.
  intros W h getenv w s Hs. split.
  - revert Hs.
    change (list_agents getenv) with (tool_prog getenv ListAgents).
    rewrite run_tool. cbv zeta.
    destruct (truthy (token_of (fst (h w (authenticate_request getenv))))) eqn:E;
      unfold outcome; simpl; intros [= <-]; [| discriminate].
    destruct (fst (h (snd (h w (authenticate_request getenv)))
                     (agents_request getenv
                        (token_of (fst (h w (authenticate_request getenv)))))))
      as [resp | e] eqn:Ho; [| discriminate].
    unfold reply. destruct (status_code resp =? 200) eqn:Hst; [| discriminate].
    unfold payload_text.
    destruct (json resp) as [body | e] eqn:Hj; [| discriminate].
    destruct (get body "data" (PyDict [])) as [d | e] eqn:Hd; [| discriminate].
    destruct (get d "affected_items" (PyList [])) as [v | e] eqn:Hv; [| discriminate].
    intros _. exists resp, body, d, v.
    split; [apply query_answered_iff; split; [exact E | now rewrite <- Ho] |].
    split; [now apply Z.eqb_eq |]. repeat split; assumption.
  - intros resp body items Hq Hst Hj Hp.
    change (list_agents getenv) with (tool_prog getenv ListAgents) in Hs.
    rewrite (query_answered_outcome h getenv ListAgents w _ Hq) in Hs.
    unfold reply in Hs. rewrite Hst, (payload_at_path resp body _ Hj Hp) in Hs.
    simpl in Hs. injection Hs as <-. now destruct items.
Qed.

Lemma bracket_means_agents_listed_witness :
  starts_with "["
    (Json.dumps (PyList agents)) = true.
Proof.
  destruct (bracket_means_agents_listed unit
              (fixed (grants "abc123") (Returned (ok agents_body))) getenv tt
              (Json.dumps (PyList agents)) eq_refl) as [_ Hlist].
  apply (Hlist (ok agents_body) agents_body agents).
  - exists (PyStr "abc123"). repeat split.
  - reflexivity.
  - reflexivity.
  - reflexivity.
Defined.

(** X9. What a tool returns is settled by the answers it received and by
    nothing else: two invocations of the same tool, against any two
    upstreams in any two states and under any two environments, return
    the same text when they received the same answers. *)
Theorem text_depends_on_answers_only :
  forall (W1 W2 : Type) (h1 : upstream W1) (h2 : upstream W2)
         (env1 env2 : environ) (t : tool) (w1 : W1) (w2 : W2),
    map snd (trace (run h1 (tool_prog env1 t) w1))
    = map snd (trace (run h2 (tool_prog env2 t) w2)) ->
    outcome (run h1 (tool_prog env1 t) w1) = outcome (run h2 (tool_prog env2 t) w2).
Proof.
  intros W1 W2 h1 h2 env1 env2 t w1 w2. rewrite !run_tool. cbv zeta.
  destruct (truthy (token_of (fst (h1 w1 (authenticate_request env1))))) eqn:E1;
    destruct (truthy (token_of (fst (h2 w2 (authenticate_request env2))))) eqn:E2;
    unfold trace, outcome; simpl; intros Hsame.
  - injection Hsame as _ Hq. now rewrite Hq.
  - discriminate.
  - discriminate.
  - reflexivity.
Qed.

Lemma text_depends_on_answers_only_witness :
  outcome (run (fixed (grants "abc123") (Returned (ok summary_body)))
             (get_infrastructure_status getenv) tt)
  = outcome (run (fun (n : nat) rq =>
                    (if is_authentication rq then grants "abc123"
                     else Returned (ok summary_body), S n))
               (get_infrastructure_status empty_env) 7%nat).
Proof.
  apply (text_depends_on_answers_only unit nat
           (fixed (grants "abc123") (Returned (ok summary_body)))
           (fun (n : nat) rq =>
              (if is_authentication rq then grants "abc123"
               else Returned (ok summary_body), S n))
           getenv empty_env InfrastructureStatus tt 7%nat).
  reflexivity.
Defined.

(** ** The encoder, once more *)

Section MoreEncoderFacts.

Import Json.

Lemma unescape_escaped (c : ascii) (rest : string) :
  unescape (escaped c ++ rest) = String c (unescape rest).
Proof.
  destruct c as [[] [] [] [] [] [] [] []]; reflexivity.
Qed.

Lemma unescape_escape (s rest : string) :
  unescape (escape s ++ rest) = s ++ unescape rest.
Proof.
  induction s as [| c s IH]; [reflexivity |].
  change (escape (String c s)) with (escaped c ++ escape s).
  rewrite append_assoc, unescape_escaped, IH. reflexivity.
Qed.

Lemma append_cancel_r (a b q : string) : a ++ q = b ++ q -> a = b.
Proof.
  assert (Hlen : forall x y, String.length (x ++ y)
                             = (String.length x + String.length y)%nat).
  { intros x y. induction x as [| c x IH]; simpl; [reflexivity | now rewrite IH]. }
  revert b. induction a as [| c a IH]; intros [| d b] Heq.
  - reflexivity.
  - apply (f_equal String.length) in Heq. simpl in Heq. rewrite Hlen in Heq. lia.
  - apply (f_equal String.length) in Heq. simpl in Heq. rewrite Hlen in Heq. lia.
  - simpl in Heq. injection Heq as -> Heq. now rewrite (IH b Heq).
Qed.



End MoreEncoderFacts.


(** X11. json.dumps writes different texts for different strings:
    escaping loses nothing of a string. *)
Theorem encoded_strings_differ :
  forall a b : string,
    a <> b -> Json.dumps (PyStr a) <> Json.dumps (PyStr b).
Proof.
  intros a b Hne Heq. apply Hne.
  unfold Json.dumps in Heq. cbn [Json.iterencode] in Heq.
  unfold Json.encode_basestring in Heq.
  injection Heq as Heq.
  apply (f_equal unescape) in Heq. rewrite !unescape_escape in Heq.
  now apply append_cancel_r in Heq.
Qed.

Lemma encoded_strings_differ_witness :
  Json.dumps (PyStr ("a" ++ Json.newline ++ "b")) <> Json.dumps (PyStr "a\nb").
Proof.
  apply encoded_strings_differ. discriminate.
Defined.
